(** * Go-style [error, data] tuples: [to], [toSync], [toPromise]

    A shallow embedding of the three wrappers of the library (src/index.ts and
    its per-function copies to.ts, toSync.ts, toPromise.ts) together with the
    fragment of the JavaScript semantics their bodies rely on:

      - [try { ... } catch (error) { ... }],
      - [error instanceof Error]   (a walk along the prototype chain),
      - [String(error)]            (ToPrimitive with hint string, then ToString),
      - [new Error(message)]       (allocation of a fresh object),
      - [await]                    (resumption at the settlement of a promise).

    Object identity matters for what the library promises (an Error that is
    passed through is the *same* object, a default value is handed back as it
    was given), so objects live in a heap and values refer to them by
    reference.  Computations thread the heap and complete normally, by a
    throw, or never.

    Scope.  The wrapped operation is any function of the heap.  Of an object
    the model keeps the prototype link, the own data properties and the
    outcome of its conversion methods: what they return or throw.  A
    conversion method that writes to the heap is outside the model, and so
    are Proxy objects, whose traps could make [instanceof] itself raise.  Numbers are the safe integers, NaN and the two infinities; doubles
    with a fractional part or beyond the safe range are left out, and the
    two zeros are one.  The result tuple is a pair of values, not an array in
    the heap.  The function
    bodies in index.ts and in to.ts, toSync.ts, toPromise.ts are the same
    text; one definition stands for both copies. *)

From stdpp Require Import base gmap strings pretty.

Open Scope string_scope.

(* ===================================================================== *)
(** ** Values *)
(* ===================================================================== *)

(** References to objects.  The three intrinsic prototype objects the code
    depends on are references of their own; every other object is allocated
    in the heap. *)
Inductive Ref :=
| ObjectPrototype
| ErrorPrototype
| TypeErrorPrototype
| Alloc (l : positive).

(** Number.isSafeInteger, on the integers: [|z| <= 2^53 - 1]. *)
Definition isSafeInteger (z : Z) : bool := (Z.abs z <=? 2 ^ 53 - 1)%Z.

(** The safe integers: the integers a double holds exactly, its neighbours
    being integers too.  They print as their decimal numeral. *)
Definition SafeInteger : Type := { z : Z | Is_true (isSafeInteger z) }.

(** Numbers: the safe integers, NaN and the two infinities.  Doubles with a
    fractional part and doubles beyond the safe range are not modelled. *)
Inductive Number :=
| NSafe (i : SafeInteger)
| NNaN
| NInfinity (negative : bool).

(** [NInt 42] is the number 42; the numeral has to be a safe integer. *)
Abbreviation NInt z := (NSafe (z%Z ↾ I)) (only parsing).

(** ECMAScript language values: the seven primitive types and objects. *)
Inductive Value :=
| VUndefined
| VNull
| VBoolean (b : bool)
| VNumber (n : Number)
| VString (s : string)
| VSymbol (id : positive) (description : option string)
| VBigInt (z : Z)
| VObject (r : Ref).

(** What the conversion methods of an object ([Symbol.toPrimitive], [toString],
    [valueOf], looked up and called by ToPrimitive with hint string) come to.
    The methods are user code; the model records their outcome. *)
Inductive Conversion :=
| MethodReturns (v : Value)   (* a method was called and returned [v] *)
| MethodThrows (v : Value)    (* a method (or a getter reached on the way) threw [v] *)
| NoMethod.                   (* no callable conversion method, as for Object.create(null) *)

(** Objects: the [[Prototype]] slot, the own data properties, and the way
    the object converts to a primitive. *)
Record Obj := mkObj {
  proto : option Ref;
  fields : gmap string Value;
  conv : Conversion
}.

Abbreviation Heap := (gmap positive Obj).

#[global] Instance Ref_eq_dec : EqDecision Ref.
Proof. solve_decision. Defined.

#[global] Instance Number_eq_dec : EqDecision Number.
Proof. solve_decision. Defined.

#[global] Instance Value_eq_dec : EqDecision Value.
Proof. solve_decision. Defined.

Definition isObject (v : Value) : bool :=
  match v with VObject _ => true | _ => false end.

(** The intrinsic objects, as far as the wrappers can observe them. *)
Definition ObjectPrototype_obj : Obj :=
  mkObj None ∅ (MethodReturns (VString "[object Object]")).

Definition ErrorPrototype_obj : Obj :=
  mkObj (Some ObjectPrototype)
        (<["name" := VString "Error"]> (<["message" := VString ""]> ∅))
        (MethodReturns (VString "Error")).

Definition TypeErrorPrototype_obj : Obj :=
  mkObj (Some ErrorPrototype)
        (<["name" := VString "TypeError"]> (<["message" := VString ""]> ∅))
        (MethodReturns (VString "TypeError")).

Definition deref (h : Heap) (r : Ref) : option Obj :=
  match r with
  | ObjectPrototype => Some ObjectPrototype_obj
  | ErrorPrototype => Some ErrorPrototype_obj
  | TypeErrorPrototype => Some TypeErrorPrototype_obj
  | Alloc l => h !! l
  end.

(** O.[[GetPrototypeOf]]() *)
Definition GetPrototypeOf (h : Heap) (r : Ref) : option Ref :=
  o ← deref h r; proto o.

(** Property read along the prototype chain is not needed by the wrappers;
    reading an own data property is, to state what [new Error(m)] builds. *)
Definition getOwn (h : Heap) (v : Value) (key : string) : option Value :=
  match v with
  | VObject r => o ← deref h r; fields o !! key
  | _ => None
  end.

(* ===================================================================== *)
(** ** Computations *)
(* ===================================================================== *)

(** How a piece of code ends: with a value, with a [throw] (for an async
    function and for a promise: a rejection), or not at all (a call that does
    not return, a promise that never settles). *)
Inductive Completion (A : Type) :=
| Normal (a : A)
| Throw (v : Value)
| Pending.

Arguments Normal {A} a.
Arguments Throw {A} v.
Arguments Pending {A}.

(** Code runs on the heap and leaves a heap. *)
Definition Eff (A : Type) : Type := Heap → Completion A * Heap.

Definition ret {A} (a : A) : Eff A := λ h, (Normal a, h).

Definition throw {A} (v : Value) : Eff A := λ h, (Throw v, h).

Definition never {A} : Eff A := λ h, (Pending, h).

Definition bind {A B} (m : Eff A) (k : A → Eff B) : Eff B :=
  λ h, match m h with
       | (Normal a, h') => k a h'
       | (Throw v, h') => (Throw v, h')
       | (Pending, h') => (Pending, h')
       end.

(** [try { body } catch (error) { handler error }] *)
Definition try_catch {A} (body : Eff A) (handler : Value → Eff A) : Eff A :=
  λ h, match body h with
       | (Throw error, h') => handler error h'
       | done => done
       end.

Declare Scope eff_scope.
Delimit Scope eff_scope with eff.
Bind Scope eff_scope with Eff.

Notation "'let*' x := m 'in' k" := (bind m (λ x, k))
  (at level 10, x binder, m at level 100, k at level 200) : eff_scope.

Open Scope eff_scope.

(** Allocation of a new object at an address the heap does not use. *)
Definition alloc (o : Obj) : Eff Ref :=
  λ h, let l := fresh (dom h) in (Normal (Alloc l), <[l := o]> h).

(* ===================================================================== *)
(** ** The operators the wrappers use *)
(* ===================================================================== *)

(** [v instanceof Error].  [Error] has no [Symbol.hasInstance] of its own, so
    the operator is OrdinaryHasInstance: false on a primitive, and on an
    object the loop

      O = O.[[GetPrototypeOf]](); if O is null return false;
      if SameValue(Error.prototype, O) return true

    Prototype chains are finite; the loop is given one step per allocated
    object and three more for the intrinsic prototypes, which is enough
    whatever the heap (lemma [instanceof_Error_spec]). *)
Fixpoint hasInstance_loop (fuel : nat) (h : Heap) (P o : Ref) : bool :=
  match fuel with
  | 0 => false
  | S fuel' =>
      match GetPrototypeOf h o with
      | None => false
      | Some o' => if decide (P = o') then true else hasInstance_loop fuel' h P o'
      end
  end.

Definition instanceof_Error (h : Heap) (v : Value) : bool :=
  match v with
  | VObject o => hasInstance_loop (3 + size h) h ErrorPrototype o
  | _ => false
  end.

(** Number::toString, radix 10.  A safe integer is below 10^21 in size, where
    the digits are written out in full. *)
Definition NumberToString (n : Number) : string :=
  match n with
  | NSafe i => pretty (`i)
  | NNaN => "NaN"
  | NInfinity false => "Infinity"
  | NInfinity true => "-Infinity"
  end.

(** Error.prototype.toString on an object whose name is "Error". *)
Definition ErrorToString (message : string) : string :=
  if decide (message = "") then "Error" else "Error: " +:+ message.

(** The object [new Error(message)] lays down: below Error.prototype, with
    the own property [message]. *)
Definition Error_obj (message : string) : Obj :=
  mkObj (Some ErrorPrototype)
        (<["message" := VString message]> ∅)
        (MethodReturns (VString (ErrorToString message))).

Definition new_Error (message : string) : Eff Value :=
  let* r := alloc (Error_obj message) in
  ret (VObject r).

(** The engine raising a TypeError: a fresh object below TypeError.prototype.
    The message texts are the ones of V8; the standard fixes none. *)
Definition TypeError_obj (message : string) : Obj :=
  mkObj (Some TypeErrorPrototype)
        (<["message" := VString message]> ∅)
        (MethodReturns (VString ("TypeError: " +:+ message))).

Definition throw_TypeError {A} (message : string) : Eff A :=
  let* r := alloc (TypeError_obj message) in
  throw (VObject r).

(** ToPrimitive(v, string): a primitive is returned as it is; for an object
    the conversion methods are consulted, and anything but a primitive
    result ends in a TypeError.  A reference that leads nowhere is treated
    as an object without properties. *)
Definition ToPrimitive (v : Value) : Eff Value :=
  match v with
  | VObject r =>
      λ h, match conv <$> deref h r with
           | Some (MethodReturns p) =>
               if isObject p
               then throw_TypeError "Cannot convert object to primitive value" h
               else ret p h
           | Some (MethodThrows e) => throw e h
           | Some NoMethod | None =>
               throw_TypeError "Cannot convert object to primitive value" h
           end
  | _ => ret v
  end.

(** ToString(v) *)
Definition ToString (v : Value) : Eff string :=
  let* prim := ToPrimitive v in
  match prim with
  | VUndefined => ret "undefined"
  | VNull => ret "null"
  | VBoolean true => ret "true"
  | VBoolean false => ret "false"
  | VNumber n => ret (NumberToString n)
  | VString s => ret s
  | VSymbol _ _ => throw_TypeError "Cannot convert a Symbol value to a string"
  | VBigInt z => ret (pretty z)
  | VObject _ => throw_TypeError "Cannot convert object to primitive value"
  end.

(** [String(v)], called as a function: a symbol is described, everything
    else goes through ToString. *)
Definition js_String (v : Value) : Eff string :=
  match v with
  | VSymbol _ description => ret ("Symbol(" +:+ default "" description +:+ ")")
  | _ => ToString v
  end.

(* ===================================================================== *)
(** ** The library *)
(* ===================================================================== *)

(** [type DoResult<T> = [Error | null, T | undefined]] *)
Definition DoResult : Type := Value * Value.

(** An optional parameter that was not passed reads [undefined]. *)
Definition optional (defaultValue : option Value) : Value :=
  default VUndefined defaultValue.

(** The expression all three handlers share,

      const errorInstance =
        error instanceof Error ? error : new Error(String(error));

    which the specification calls normalizeFailure. *)
Definition errorInstance (error : Value) : Eff Value :=
  λ h, if instanceof_Error h error
       then ret error h
       else (let* message := js_String error in new_Error message) h.

(** The [catch] block of the three wrappers. *)
Definition handler (defaultValue : option Value) (error : Value) : Eff DoResult :=
  let* e := errorInstance error in
  ret (e, optional defaultValue).

(** [function toSync<T>(fn: () => T, defaultValue?: T): DoResult<T>] *)
Definition toSync (fn : Eff Value) (defaultValue : option Value) : Eff DoResult :=
  try_catch
    (let* result := fn in ret (VNull, result))
    (handler defaultValue).

(** A promise is known by what awaiting it comes to: the value it is
    fulfilled with, the signal it is rejected with, or nothing, and the heap
    the awaiting code finds when it is resumed. *)
Definition Promise : Type := Eff Value.

Definition await (p : Promise) : Eff Value := p.

Definition Promise_resolve (v : Value) : Promise := ret v.

Definition Promise_reject (s : Value) : Promise := throw s.

(** [type AsyncFunction<T> = (...args: unknown[]) => Promise<T>]: the call
    returns a promise, or throws before it has one. *)
Definition AsyncFunction : Type := Eff Promise.

(** [async function to<T>(asyncFn, defaultValue?): Promise<DoResult<T>>].
    The completion is the settlement of the promise the call returns. *)
Definition to (asyncFn : AsyncFunction) (defaultValue : option Value) : Eff DoResult :=
  try_catch
    (let* result := (let* p := asyncFn in await p) in ret (VNull, result))
    (handler defaultValue).

(** [async function toPromise<T>(promise, defaultValue?): Promise<DoResult<T>>] *)
Definition toPromise (promise : Promise) (defaultValue : option Value) : Eff DoResult :=
  try_catch
    (let* result := await promise in ret (VNull, result))
    (handler defaultValue).

(* ===================================================================== *)
(** ** Vocabulary of the statements *)
(* ===================================================================== *)

(** A call of one of the three wrappers, with the operation it is given. *)
Inductive Call :=
| call_to (asyncFn : AsyncFunction)
| call_toSync (fn : Eff Value)
| call_toPromise (promise : Promise).

Definition wrapper (c : Call) (defaultValue : option Value) : Eff DoResult :=
  match c with
  | call_to asyncFn => to asyncFn defaultValue
  | call_toSync fn => toSync fn defaultValue
  | call_toPromise promise => toPromise promise defaultValue
  end.

(** What the wrapped operation comes to: for [toSync] the call of [fn]; for
    [to] the call of [asyncFn] followed by the settlement of the promise it
    returned; for [toPromise] the settlement of the promise. *)
Definition operation (c : Call) : Eff Value :=
  match c with
  | call_to asyncFn => let* p := asyncFn in await p
  | call_toSync fn => fn
  | call_toPromise promise => await promise
  end.

(** The two ways the operation of [to] can fail with a signal [s]. *)
Inductive fails_with (asyncFn : AsyncFunction) (h : Heap) (s : Value) (h' : Heap) : Prop :=
| raised_at_once :
    asyncFn h = (Throw s, h') → fails_with asyncFn h s h'
| rejected_later (p : Promise) (h0 : Heap) :
    asyncFn h = (Normal p, h0) → await p h0 = (Throw s, h') →
    fails_with asyncFn h s h'.

Definition isSymbol (v : Value) : bool :=
  match v with VSymbol _ _ => true | _ => false end.

(** The values [String] turns into a text: the primitives, and the objects
    whose conversion methods return a primitive that is not a symbol. *)
Definition convertible (h : Heap) (v : Value) : bool :=
  match v with
  | VObject r =>
      match conv <$> deref h r with
      | Some (MethodReturns p) => negb (isObject p) && negb (isSymbol p)
      | _ => false
      end
  | _ => true
  end.

(** [error.message], when it is an own property. *)
Definition message_of (h : Heap) (error : Value) : option Value :=
  getOwn h error "message".

(** The prototype [n] steps up from [o]. *)
Fixpoint ancestor (n : nat) (h : Heap) (o : Ref) : option Ref :=
  match n with
  | 0 => Some o
  | S n' => o' ← GetPrototypeOf h o; ancestor n' h o'
  end.

(** [f] is an object that [h] did not have and that [h'] has in addition,
    laid down by [new Error(message)]. *)
Definition fresh_Error (h : Heap) (message : string) (f : Value) (h' : Heap) : Prop :=
  ∃ l, f = VObject (Alloc l) ∧ h !! l = None ∧ h' = <[l := Error_obj message]> h.

(* ===================================================================== *)
(** ** Sample heaps and operations *)
(* ===================================================================== *)

(** [Object.create(null)]: no prototype, no properties, no [toString]. *)
Definition bare_heap : Heap := <[1%positive := mkObj None ∅ NoMethod]> ∅.

Definition bare : Value := VObject (Alloc 1).

(** [{ toString() { throw "nope" } }] *)
Definition grumpy_heap : Heap :=
  <[1%positive := mkObj (Some ObjectPrototype) ∅ (MethodThrows (VString "nope"))]> ∅.

(** [const a = {}; a.self = a] *)
Definition cyclic_heap : Heap :=
  <[1%positive := mkObj (Some ObjectPrototype)
                        (<["self" := VObject (Alloc 1)]> ∅)
                        (MethodReturns (VString "[object Object]"))]> ∅.

(** [Object.assign(new Error("boom"), { code: 42 })] *)
Definition coded_heap : Heap :=
  <[1%positive := mkObj (Some ErrorPrototype)
                        (<["code" := VNumber (NInt 42)]> (<["message" := VString "boom"]> ∅))
                        (MethodReturns (VString "Error: boom"))]> ∅.

(** [class HttpError extends Error {}] and [new HttpError("gone")]:
    the instance lies two steps below Error.prototype. *)
Definition subclass_heap : Heap :=
  <[2%positive := mkObj (Some (Alloc 1))
                        (<["message" := VString "gone"]> ∅)
                        (MethodReturns (VString "Error: gone"))]>
  (<[1%positive := mkObj (Some ErrorPrototype) ∅ (MethodReturns (VString "Error"))]> ∅).

(** A heap in which SyntaxError.prototype has been laid down at address 1,
    and [JSON.parse("invalid json")], which raises a new SyntaxError; the
    text of its message is the engine's. *)
Definition syntax_heap : Heap :=
  <[1%positive := mkObj (Some ErrorPrototype)
                        (<["name" := VString "SyntaxError"]> (<["message" := VString ""]> ∅))
                        (MethodReturns (VString "SyntaxError"))]> ∅.

Definition SyntaxError_obj (message : string) : Obj :=
  mkObj (Some (Alloc 1))
        (<["message" := VString message]> ∅)
        (MethodReturns (VString ("SyntaxError: " +:+ message))).

Definition jsonParseSync_invalid (message : string) : Eff Value :=
  let* r := alloc (SyntaxError_obj message) in
  throw (VObject r).

(** [async () => Promise.reject(new Error("Async operation failed"))] *)
Definition failingAsync : AsyncFunction :=
  ret (let* e := new_Error "Async operation failed" in Promise_reject e).

(** [async () => { throw new Error("Thrown error") }] *)
Definition throwingAsync : AsyncFunction :=
  ret (let* e := new_Error "Thrown error" in throw e).

(** [() => { throw new Error("Sync operation failed") }] *)
Definition throwingSync : Eff Value :=
  let* e := new_Error "Sync operation failed" in throw e.

(* ===================================================================== *)
(** ** Callers: what the examples and the tests do with a tuple *)
(* ===================================================================== *)

(** ToBoolean, as [if (error)] and [||] apply it. *)
Definition ToBoolean (v : Value) : bool :=
  match v with
  | VUndefined | VNull => false
  | VBoolean b => b
  | VNumber (NSafe i) => negb (`i =? 0)%Z
  | VNumber NNaN => false
  | VNumber (NInfinity _) => true
  | VString s => negb (bool_decide (s = ""))
  | VSymbol _ _ => true
  | VBigInt z => negb (z =? 0)%Z
  | VObject _ => true
  end.



(** [toPromise(asyncFn(), defaultValue)]: the promise is made by the caller,
    before [toPromise] is entered. *)
Definition toPromise_of_call (asyncFn : AsyncFunction) (defaultValue : option Value) : Eff DoResult :=
  let* promise := asyncFn in toPromise promise defaultValue.

(** The call of an [async] function whose body has no [await]: the body runs
    during the call, and the promise that is returned is settled with what
    the body came to. *)
Definition async_call (body : Eff Value) : AsyncFunction :=
  λ h, match body h with
       | (Normal v, h') => (Normal (Promise_resolve v), h')
       | (Throw s, h') => (Normal (Promise_reject s), h')
       | (Pending, h') => (Pending, h')
       end.

(** [a <= b] on numbers: false as soon as one side is NaN. *)
Definition Number_le (a b : Number) : bool :=
  match a, b with
  | NNaN, _ => false
  | _, NNaN => false
  | NSafe x, NSafe y => (`x <=? `y)%Z
  | NSafe _, NInfinity negative => negb negative
  | NInfinity negative, NSafe _ => negative
  | NInfinity true, NInfinity _ => true
  | NInfinity false, NInfinity negative => negb negative
  end.

(** The object literal [{ id, name, email }] of [fetchUser]. *)
Definition user_obj (id : Number) : Obj :=
  mkObj (Some ObjectPrototype)
        (<["id" := VNumber id]>
           (<["name" := VString ("User " +:+ NumberToString id)]>
              (<["email" := VString ("user" +:+ NumberToString id +:+ "@example.com")]> ∅)))
        (MethodReturns (VString "[object Object]")).

(** The function the tests and the first example wrap:

      const fetchUser = async (id: number) => {
        if (id <= 0) { throw new Error('Invalid user ID'); }
        return { id, name: `User ${id}`, email: `user${id}@example.com` };
      };
*)
Definition fetchUser (id : Number) : AsyncFunction :=
  async_call
    (if Number_le id (NInt 0)
     then (let* e := new_Error "Invalid user ID" in throw e)
     else (let* r := alloc (user_obj id) in ret (VObject r))).

(* ===================================================================== *)
(** ** Laws of the computations *)
(* ===================================================================== *)

Section Laws.
Context {A B C : Type}.

Lemma bind_ret_l (a : A) (k : A → Eff B) (h : Heap) :
  (let* x := ret a in k x) h = k a h.
Proof. reflexivity. Qed.

Lemma bind_ret_r (m : Eff A) (h : Heap) :
  (let* x := m in ret x) h = m h.
Proof. unfold bind, ret. by destruct (m h) as [[a|v|] h']. Qed.

Lemma bind_assoc (m : Eff A) (k : A → Eff B) (k' : B → Eff C) (h : Heap) :
  (let* y := (let* x := m in k x) in k' y) h = (let* x := m in let* y := k x in k' y) h.
Proof. unfold bind. by destruct (m h) as [[a|v|] h']. Qed.

Lemma bind_throw_l (v : Value) (k : A → Eff B) (h : Heap) :
  (let* x := throw v in k x) h = throw v h.
Proof. reflexivity. Qed.

Lemma bind_normal (m : Eff A) (k : A → Eff B) (h h' : Heap) (a : A) :
  m h = (Normal a, h') → (let* x := m in k x) h = k a h'.
Proof. unfold bind. by intros ->. Qed.

Lemma bind_raise (m : Eff A) (k : A → Eff B) (h h' : Heap) (v : Value) :
  m h = (Throw v, h') → (let* x := m in k x) h = (Throw v, h').
Proof. unfold bind. by intros ->. Qed.

Lemma try_catch_normal (body : Eff A) (hd : Value → Eff A) (h h' : Heap) (a : A) :
  body h = (Normal a, h') → try_catch body hd h = (Normal a, h').
Proof. unfold try_catch. by intros ->. Qed.

Lemma try_catch_raise (body : Eff A) (hd : Value → Eff A) (h h' : Heap) (v : Value) :
  body h = (Throw v, h') → try_catch body hd h = hd v h'.
Proof. unfold try_catch. by intros ->. Qed.

Lemma try_catch_pending (body : Eff A) (hd : Value → Eff A) (h h' : Heap) :
  body h = (Pending, h') → try_catch body hd h = (Pending, h').
Proof. unfold try_catch. by intros ->. Qed.

End Laws.

(* ===================================================================== *)
(** ** The three wrappers are one function of the operation's outcome *)
(* ===================================================================== *)

Lemma wrapper_cases (c : Call) (defaultValue : option Value) (h : Heap) :
  wrapper c defaultValue h =
  match operation c h with
  | (Normal result, h1) => (Normal (VNull, result), h1)
  | (Throw error, h1) => handler defaultValue error h1
  | (Pending, h1) => (Pending, h1)
  end.
Proof.
  destruct c as [asyncFn|fn|promise]; cbn [wrapper operation];
    unfold to, toSync, toPromise, try_catch.
  - unfold bind at 1. by destruct (bind asyncFn _ h) as [[v|s|] h1].
  - unfold bind. by destruct (fn h) as [[v|s|] h1].
  - unfold bind. by destruct (await promise h) as [[v|s|] h1].
Qed.

Lemma fails_with_operation (asyncFn : AsyncFunction) (h h' : Heap) (s : Value) :
  fails_with asyncFn h s h' ↔ operation (call_to asyncFn) h = (Throw s, h').
Proof.
  cbn [operation]. unfold bind. split.
  - intros [Hnow | p h0 Hp Hlater]; [by rewrite Hnow | by rewrite Hp].
  - destruct (asyncFn h) as [[p|s'|] h0] eqn:Hcall; intros Hop.
    + by eapply rejected_later.
    + apply raised_at_once. congruence.
    + discriminate.
Qed.

(* ===================================================================== *)
(** ** Allocation *)
(* ===================================================================== *)

Lemma fresh_unused (h : Heap) : h !! fresh (dom h) = None.
Proof. apply not_elem_of_dom, is_fresh. Qed.

Lemma new_Error_eq (message : string) (h : Heap) :
  new_Error message h =
  (Normal (VObject (Alloc (fresh (dom h)))), <[fresh (dom h) := Error_obj message]> h).
Proof. reflexivity. Qed.

(** What [new Error(message)] returns is an instance of [Error]: its
    prototype is Error.prototype, found at the first step. *)
Lemma instanceof_Error_fresh (message : string) (h : Heap) (l : positive) :
  instanceof_Error (<[l := Error_obj message]> h) (VObject (Alloc l)) = true.
Proof.
  cbn -[size]. unfold GetPrototypeOf. cbn. by rewrite lookup_insert_eq.
Qed.

Lemma message_of_fresh (message : string) (h : Heap) (l : positive) :
  message_of (<[l := Error_obj message]> h) (VObject (Alloc l)) = Some (VString message).
Proof.
  unfold message_of, getOwn. cbn. rewrite lookup_insert_eq. cbn.
  by rewrite lookup_insert_eq.
Qed.

(* ===================================================================== *)
(** ** The prototype walk has steps enough *)
(* ===================================================================== *)

Lemma ancestor_plus (n m : nat) (h : Heap) (o : Ref) :
  ancestor (n + m) h o = ancestor n h o ≫= ancestor m h.
Proof.
  revert o. induction n as [|n IH]; intros o; cbn; [done|].
  destruct (GetPrototypeOf h o) as [o'|]; cbn; [apply IH | done].
Qed.

(** The loop answers true exactly when [P] is met within [fuel] steps. *)
Lemma hasInstance_loop_spec (fuel : nat) (h : Heap) (P o : Ref) :
  hasInstance_loop fuel h P o = true ↔ ∃ k : nat, (1 ≤ k ≤ fuel)%nat ∧ ancestor k h o = Some P.
Proof.
  revert o. induction fuel as [|fuel IH]; intros o; cbn.
  { split; [done | intros (k & ? & _); lia]. }
  destruct (GetPrototypeOf h o) as [o'|] eqn:Hproto.
  - destruct (decide (P = o')) as [->|Hne].
    + split; [intros _ | done]. exists 1. split; [lia|]. cbn. by rewrite Hproto.
    + rewrite IH. split.
      * intros (k & Hk & Hanc). exists (S k). split; [lia|]. cbn. by rewrite Hproto.
      * intros ([|k] & Hk & Hanc); [lia|]. cbn in Hanc. rewrite Hproto in Hanc. cbn in Hanc.
        destruct k as [|k]; [cbn in Hanc; congruence|].
        exists (S k). split; [lia | done].
  - split; [done|]. intros ([|k] & Hk & Hanc); [lia|].
    cbn in Hanc. by rewrite Hproto in Hanc.
Qed.

(** Only the two Error prototypes and the allocated objects have a
    prototype of their own. *)
Lemma GetPrototypeOf_Some (h : Heap) (r r' : Ref) :
  GetPrototypeOf h r = Some r' →
  r ∈ ErrorPrototype :: TypeErrorPrototype :: (Alloc <$> elements (dom h)).
Proof.
  destruct r as [| | |l]; cbn; [done | set_solver | set_solver |].
  intros Hl. do 2 apply list_elem_of_further.
  apply list_elem_of_fmap. exists l. split; [done|].
  apply elem_of_elements, elem_of_dom.
  unfold GetPrototypeOf in Hl. cbn in Hl. destruct (h !! l); [done | discriminate].
Qed.

(** A prototype that is met at all is met within [2 + size h] steps: on the
    shortest way to it no object comes twice. *)
Lemma ancestor_short (h : Heap) (P o : Ref) (k : nat) :
  (1 ≤ k)%nat → ancestor k h o = Some P →
  ∃ k' : nat, (1 ≤ k' ≤ 2 + size h)%nat ∧ ancestor k' h o = Some P.
Proof.
  induction k as [k IH] using lt_wf_ind. intros Hk Hanc.
  destruct (decide (Exists (λ k', ancestor k' h o = Some P) (seq 1 (k - 1))))
    as [Hearlier | Hfirst].
  { apply Exists_exists in Hearlier as (k' & Hin & Hanc').
    apply elem_of_seq in Hin. apply (IH k'); [lia | lia | done]. }
  exists k. split; [split; [done|] | done].
  set (path := (λ i, ancestor i h o) <$> seq 0 k).
  assert (Hlen : length path = k) by (unfold path; by rewrite length_fmap, length_seq).
  assert (Hat : ∀ i x, path !! i = Some x → i < k ∧ x = ancestor i h o).
  { intros i x. unfold path. rewrite list_lookup_fmap.
    destruct (seq 0 k !! i) as [i'|] eqn:Hi; [|done].
    apply lookup_seq in Hi as [-> ?]. by intros [= <-]. }
  assert (Hloop : ∀ i j, i < j → j < k → ancestor i h o = ancestor j h o → False).
  { intros i j Hij Hjk Heq. apply Hfirst, Exists_exists.
    exists (i + (k - j)). split; [apply elem_of_seq; lia|].
    rewrite ancestor_plus, Heq, <- ancestor_plus.
    by replace (j + (k - j)) with k by lia. }
  assert (Hnodup : NoDup path).
  { apply NoDup_alt. intros i j x [Hi ->]%Hat [Hj Heq]%Hat.
    destruct (Nat.lt_trichotomy i j) as [Hlt | [-> | Hgt]]; [|done|].
    - destruct (Hloop i j); done.
    - destruct (Hloop j i); done. }
  assert (Hin : ∀ x, x ∈ path →
            x ∈ Some <$> ErrorPrototype :: TypeErrorPrototype :: (Alloc <$> elements (dom h))).
  { intros x (i & Hx)%list_elem_of_lookup. apply Hat in Hx as [Hi ->].
    replace k with (i + S (k - i - 1)) in Hanc by lia.
    rewrite ancestor_plus in Hanc.
    destruct (ancestor i h o) as [r|]; [|done]. cbn in Hanc.
    destruct (GetPrototypeOf h r) as [r'|] eqn:Hproto; [|done].
    apply list_elem_of_fmap. exists r. split; [done|]. by eapply GetPrototypeOf_Some. }
  pose proof (submseteq_length _ _ (NoDup_submseteq _ _ Hnodup Hin)) as Hle.
  rewrite Hlen in Hle. rewrite length_fmap in Hle. cbn in Hle.
  rewrite length_fmap in Hle.
  change (length (elements (dom h))) with (size (dom h)) in Hle.
  rewrite size_dom in Hle. lia.
Qed.

(** [v instanceof Error] holds exactly when Error.prototype lies on the
    prototype chain of [v], however long the chain. *)
Lemma instanceof_Error_spec (h : Heap) (o : Ref) :
  instanceof_Error h (VObject o) = true ↔
  ∃ k : nat, (1 ≤ k)%nat ∧ ancestor k h o = Some ErrorPrototype.
Proof.
  cbn [instanceof_Error]. rewrite hasInstance_loop_spec. split.
  - intros (k & Hk & Hanc). exists k. split; [lia | done].
  - intros (k & Hk & Hanc).
    destruct (ancestor_short h ErrorPrototype o k Hk Hanc) as (k' & Hk' & Hanc').
    exists k'. split; [lia | done].
Qed.

Lemma instanceof_Error_subclass :
  instanceof_Error subclass_heap (VObject (Alloc 2)) = true ∧
  ancestor 2 subclass_heap (Alloc 2) = Some ErrorPrototype.
Proof. split; reflexivity. Qed.

(* ===================================================================== *)
(** ** [String(error)] *)
(* ===================================================================== *)

Lemma js_String_string (s : string) (h : Heap) :
  js_String (VString s) h = (Normal s, h).
Proof. reflexivity. Qed.

Lemma js_String_number (n : Number) (h : Heap) :
  js_String (VNumber n) h = (Normal (NumberToString n), h).
Proof. reflexivity. Qed.

Lemma js_String_undefined (h : Heap) : js_String VUndefined h = (Normal "undefined", h).
Proof. reflexivity. Qed.

Lemma js_String_null (h : Heap) : js_String VNull h = (Normal "null", h).
Proof. reflexivity. Qed.

(** A primitive always has a text, and taking it leaves the heap alone. *)
Lemma js_String_primitive (v : Value) (h : Heap) :
  isObject v = false → ∃ t, js_String v h = (Normal t, h).
Proof.
  destruct v as [| |[|]| | | | |r]; cbn; intros Hprim; try discriminate; eauto.
Qed.

Lemma js_String_object (r : Ref) (p : Value) (h : Heap) :
  conv <$> deref h r = Some (MethodReturns p) → isObject p = false →
  js_String (VObject r) h = ToString p h.
Proof.
  intros Hconv Hp. cbn [js_String]. unfold ToString, bind at 1.
  cbn [ToPrimitive]. rewrite Hconv, Hp. cbn.
  unfold ToString, bind. by destruct p.
Qed.

Lemma js_String_convertible (v : Value) (h : Heap) :
  convertible h v = true → ∃ t, js_String v h = (Normal t, h).
Proof.
  destruct v as [| | | | | | |r]; try (intros _; by apply js_String_primitive).
  cbn [convertible].
  destruct (conv <$> deref h r) as [[p| |]|] eqn:Hconv; try discriminate.
  intros [Hobj Hsym]%andb_prop.
  apply negb_true_iff in Hobj. apply negb_true_iff in Hsym.
  rewrite (js_String_object r p h Hconv Hobj).
  destruct p as [| |[|]| | | | |r']; try discriminate; eauto.
Qed.

(* ===================================================================== *)
(** ** [errorInstance]: the normalisation of a caught signal *)
(* ===================================================================== *)

Lemma errorInstance_Error (error : Value) (h : Heap) :
  instanceof_Error h error = true → errorInstance error h = (Normal error, h).
Proof. unfold errorInstance. by intros ->. Qed.

Lemma errorInstance_other (error : Value) (h : Heap) :
  instanceof_Error h error = false →
  errorInstance error h = (let* message := js_String error in new_Error message) h.
Proof. unfold errorInstance. by intros ->. Qed.

Lemma errorInstance_text (error : Value) (t : string) (h h' : Heap) :
  instanceof_Error h error = false → js_String error h = (Normal t, h') →
  errorInstance error h =
  (Normal (VObject (Alloc (fresh (dom h')))), <[fresh (dom h') := Error_obj t]> h').
Proof.
  intros Hother Htext. rewrite (errorInstance_other _ _ Hother).
  by rewrite (bind_normal _ _ _ _ _ Htext).
Qed.

(** What the normalisation returns is an [Error] instance. *)
Lemma errorInstance_instance (error f : Value) (h h' : Heap) :
  errorInstance error h = (Normal f, h') → instanceof_Error h' f = true.
Proof.
  unfold errorInstance. destruct (instanceof_Error h error) eqn:Hinst.
  - by intros [= <- <-].
  - unfold bind. destruct (js_String error h) as [[t|e|] h1]; try discriminate.
    rewrite new_Error_eq. intros [= <- <-]. apply instanceof_Error_fresh.
Qed.

Lemma handler_eq (defaultValue : option Value) (error : Value) (h : Heap) :
  handler defaultValue error h =
  match errorInstance error h with
  | (Normal e, h') => (Normal (e, optional defaultValue), h')
  | (Throw v, h') => (Throw v, h')
  | (Pending, h') => (Pending, h')
  end.
Proof. reflexivity. Qed.

Lemma fresh_Error_new (message : string) (h : Heap) :
  fresh_Error h message (VObject (Alloc (fresh (dom h))))
              (<[fresh (dom h) := Error_obj message]> h).
Proof. exists (fresh (dom h)). split_and!; [done | apply fresh_unused | done]. Qed.

(* ===================================================================== *)
(** ** The success path *)
(* ===================================================================== *)

(** C2: when the wrapped operation returns, or settles successfully, with a
    value [v], each of [to], [toSync] and [toPromise] returns the tuple
    [[null, v]]: the failure slot is [null], the value slot is [v] itself (the
    same reference, no copy), and the heap is the one the operation left (no
    mutation by the wrapper). *)
Theorem success_tuple (c : Call) (defaultValue : option Value) (v : Value) (h h1 : Heap) :
  operation c h = (Normal v, h1) →
  wrapper c defaultValue h = (Normal (VNull, v), h1).
Proof. intros Hop. by rewrite wrapper_cases, Hop. Qed.

Lemma success_tuple_witness :
  operation (call_to (ret (Promise_resolve (VString "hello")))) (∅ : Heap)
    = (Normal (VString "hello"), ∅) ∧
  wrapper (call_to (ret (Promise_resolve (VString "hello")))) None (∅ : Heap)
    = (Normal (VNull, VString "hello"), ∅).
Proof. split; [reflexivity | apply success_tuple; reflexivity]. Defined.

(** C9: success is decided by the operation not raising, never by what it
    produced.  An operation that succeeds with an [Error] instance, or with
    [undefined], still gets [[null, v]] with that very value in the value slot:
    it is neither normalised nor replaced by the default value, whether one
    was passed or not. *)
Theorem success_not_reclassified
    (c : Call) (defaultValue : option Value) (v : Value) (h h1 : Heap) :
  operation c h = (Normal v, h1) →
  instanceof_Error h1 v = true ∨ v = VUndefined →
  wrapper c defaultValue h = (Normal (VNull, v), h1).
Proof. intros Hop _. by rewrite wrapper_cases, Hop. Qed.

Lemma success_not_reclassified_witness :
  operation (call_toSync (new_Error "returned, not thrown")) (∅ : Heap)
    = (Normal (VObject (Alloc 1)), <[1%positive := Error_obj "returned, not thrown"]> ∅) ∧
  (instanceof_Error (<[1%positive := Error_obj "returned, not thrown"]> ∅) (VObject (Alloc 1)) = true
   ∨ VObject (Alloc 1) = VUndefined) ∧
  wrapper (call_toSync (new_Error "returned, not thrown")) (Some (VString "fallback")) (∅ : Heap)
    = (Normal (VNull, VObject (Alloc 1)), <[1%positive := Error_obj "returned, not thrown"]> ∅).
Proof.
  split; [reflexivity|]. split; [by left|].
  apply (success_not_reclassified
           (call_toSync (new_Error "returned, not thrown")) (Some (VString "fallback")));
    [reflexivity | by left].
Defined.

(* ===================================================================== *)
(** ** What the normalisation builds *)
(* ===================================================================== *)

(** A primitive is never an instance of [Error]. *)
Lemma instanceof_Error_primitive (v : Value) (h : Heap) :
  isObject v = false → instanceof_Error h v = false.
Proof. by destruct v. Qed.

(** C7: the normalisation is the identity on what is already an [Error]
    instance: it returns the same reference and leaves the heap, hence every
    field attached to the object, as it was.  So normalising twice is
    normalising once, for every raised value. *)
Theorem errorInstance_idempotent (x : Value) (h : Heap) :
  (instanceof_Error h x = true → errorInstance x h = (Normal x, h)) ∧
  (let* f := errorInstance x in errorInstance f) h = errorInstance x h.
Proof.
  split; [apply errorInstance_Error|].
  unfold bind. destruct (errorInstance x h) as [[f|e|] h'] eqn:Hf; try done.
  apply errorInstance_Error. by eapply errorInstance_instance.
Qed.

Lemma errorInstance_idempotent_witness :
  instanceof_Error coded_heap (VObject (Alloc 1)) = true ∧
  errorInstance (VObject (Alloc 1)) coded_heap = (Normal (VObject (Alloc 1)), coded_heap) ∧
  getOwn coded_heap (VObject (Alloc 1)) "code" = Some (VNumber (NInt 42)).
Proof.
  split; [reflexivity|]. split; [|reflexivity].
  apply (proj1 (errorInstance_idempotent (VObject (Alloc 1)) coded_heap)). reflexivity.
Defined.

(* ===================================================================== *)
(** ** [to] and [toPromise] *)
(* ===================================================================== *)

(** For [to], a throw during the call of [asyncFn] and a rejection of the
    promise it returned reach the same handler with the same signal. *)
Lemma to_fails_with
    (asyncFn : AsyncFunction) (defaultValue : option Value) (s : Value) (h h1 : Heap) :
  fails_with asyncFn h s h1 → to asyncFn defaultValue h = handler defaultValue s h1.
Proof.
  intros Hfail%fails_with_operation.
  change (to asyncFn defaultValue h) with (wrapper (call_to asyncFn) defaultValue h).
  by rewrite wrapper_cases, Hfail.
Qed.

Lemma to_raise_like_reject (s : Value) (defaultValue : option Value) (h : Heap) :
  to (throw s) defaultValue h = to (ret (Promise_reject s)) defaultValue h.
Proof.
  rewrite (to_fails_with (throw s) defaultValue s h h) by (by apply raised_at_once).
  by rewrite (to_fails_with (ret (Promise_reject s)) defaultValue s h h)
    by (by eapply rejected_later).
Qed.

(** C8: a promise and a factory of a promise with the same eventual outcome
    get the same tuple: if calling [asyncFn] and awaiting what it returns
    comes to what awaiting [promise] comes to, then [to asyncFn d] and
    [toPromise promise d] complete alike, for every default value. *)
Theorem to_toPromise_agree
    (asyncFn : AsyncFunction) (promise : Promise) (defaultValue : option Value)
    (h h' : Heap) :
  (let* p := asyncFn in await p) h = await promise h' →
  to asyncFn defaultValue h = toPromise promise defaultValue h'.
Proof.
  intros Hsame.
  change (to asyncFn defaultValue h) with (wrapper (call_to asyncFn) defaultValue h).
  change (toPromise promise defaultValue h')
    with (wrapper (call_toPromise promise) defaultValue h').
  rewrite !wrapper_cases. cbn [operation]. by rewrite Hsame.
Qed.

Lemma to_toPromise_agree_witness :
  (let* p := ret (Promise_reject (VString "string error")) in await p) (∅ : Heap)
    = await (Promise_reject (VString "string error")) ∅ ∧
  to (ret (Promise_reject (VString "string error"))) None (∅ : Heap)
    = toPromise (Promise_reject (VString "string error")) None ∅.
Proof. split; [reflexivity | apply to_toPromise_agree; reflexivity]. Defined.

(* ===================================================================== *)
(** ** Where the handler itself raises *)
(* ===================================================================== *)

(** C3, at a raised [Object.create(null)]: the normalisation is not total.
    The object is no [Error] instance, [String(error)] finds no conversion
    method and raises, and the TypeError of the engine leaves the
    normalisation: no failure object comes back, and there is no placeholder
    message to fall back on. *)
Lemma errorInstance_raises_on_bare_object :
  instanceof_Error bare_heap bare = false ∧
  errorInstance bare bare_heap
    = (Throw (VObject (Alloc 2)),
       <[2%positive := TypeError_obj "Cannot convert object to primitive value"]> bare_heap) ∧
  ¬ ∃ f h', errorInstance bare bare_heap = (Normal f, h').
Proof.
  split; [reflexivity|]. split; [reflexivity|].
  intros (f & h' & Hf). vm_compute in Hf. discriminate Hf.
Qed.

(** A [toString] that throws is not caught either: its signal is what
    leaves the wrapper, in place of a tuple. *)
Lemma toSync_raises_on_grumpy_object :
  toSync (throw (VObject (Alloc 1))) (Some (VString "default")) grumpy_heap
    = (Throw (VString "nope"), grumpy_heap).
Proof. reflexivity. Qed.

(** [String] has a text exactly for the values counted as convertible. *)
Lemma js_String_returns_iff (v : Value) (h : Heap) :
  (∃ t h', js_String v h = (Normal t, h')) ↔ convertible h v = true.
Proof.
  split.
  - destruct v as [| | | | | | |r]; try done.
    intros (t & h' & Htext). revert Htext. cbn.
    unfold ToString, bind at 1. cbn [ToPrimitive].
    destruct (conv <$> deref h r) as [[p|e|]|]; try done.
    by destruct p as [| |[|]| | | | |r'].
  - intros Hconv. destruct (js_String_convertible _ _ Hconv) as [t Htext]. by exists t, h.
Qed.

(** The normalisation returns exactly for the [Error] instances and the
    convertible values; for every other raised value it raises. *)
Lemma errorInstance_returns_iff (error : Value) (h : Heap) :
  (∃ f h', errorInstance error h = (Normal f, h')) ↔
  instanceof_Error h error = true ∨ convertible h error = true.
Proof.
  rewrite <- js_String_returns_iff. unfold errorInstance.
  destruct (instanceof_Error h error).
  - split; [by left | intros _; by eexists _, _].
  - unfold bind. split.
    + intros (f & h' & Hf). right.
      destruct (js_String error h) as [[t|e|] h1]; try done. by exists t, h1.
    + intros [|(t & h1 & ->)]; [done|]. rewrite new_Error_eq. by eexists _, _.
Qed.

(** The message a cyclic plain object gets is the text of
    Object.prototype.toString. *)
Lemma errorInstance_cyclic_object :
  errorInstance (VObject (Alloc 1)) cyclic_heap
    = (Normal (VObject (Alloc 2)), <[2%positive := Error_obj "[object Object]"]> cyclic_heap).
Proof. reflexivity. Qed.

(** C4, at [to(() => { throw Object.create(null) })] and at
    [to(() => Promise.reject(Object.create(null)))]: the throw at once and
    the rejection later are handled alike, but the promise [to] returns is
    rejected with the TypeError of the handler instead of being fulfilled
    with a tuple. *)
Theorem to_rejects_on_bare_object :
  to (throw bare) None bare_heap
    = (Throw (VObject (Alloc 2)),
       <[2%positive := TypeError_obj "Cannot convert object to primitive value"]> bare_heap) ∧
  to (ret (Promise_reject bare)) None bare_heap
    = (Throw (VObject (Alloc 2)),
       <[2%positive := TypeError_obj "Cannot convert object to primitive value"]> bare_heap).
Proof. split; reflexivity. Qed.

(** C5, at a raised [Object.create(null)]: each of the three wrappers lets a
    TypeError out, by a throw from [toSync] and by a rejection from [to] and
    [toPromise], whether a default value was passed or not. *)
Theorem wrappers_raise_on_bare_object (c : Call) (defaultValue : option Value) (h : Heap) :
  operation c h = (Throw bare, bare_heap) →
  wrapper c defaultValue h
    = (Throw (VObject (Alloc 2)),
       <[2%positive := TypeError_obj "Cannot convert object to primitive value"]> bare_heap).
Proof. intros Hop. by rewrite wrapper_cases, Hop. Qed.

Lemma wrappers_raise_on_bare_object_witness :
  operation (call_toSync (throw bare)) bare_heap = (Throw bare, bare_heap) ∧
  toSync (throw bare) (Some (VString "default")) bare_heap
    = (Throw (VObject (Alloc 2)),
       <[2%positive := TypeError_obj "Cannot convert object to primitive value"]> bare_heap).
Proof.
  split; [reflexivity|].
  apply (wrappers_raise_on_bare_object (call_toSync (throw bare))). reflexivity.
Defined.

(** C1, at a raised [Object.create(null)]: no wrapper returns the tuple
    [[errorInstance(s), defaultValue]], or any tuple, whether a default value
    was passed or not; the catch block raises before it has built one. *)
Theorem no_failure_tuple_on_bare_object
    (c : Call) (defaultValue : option Value) (h : Heap) :
  operation c h = (Throw bare, bare_heap) →
  ∀ (t : DoResult) (h2 : Heap), wrapper c defaultValue h ≠ (Normal t, h2).
Proof. intros Hop t h2. by rewrite wrapper_cases, Hop. Qed.

Lemma no_failure_tuple_on_bare_object_witness :
  operation (call_toPromise (Promise_reject bare)) bare_heap = (Throw bare, bare_heap) ∧
  ∀ (t : DoResult) (h2 : Heap),
    toPromise (Promise_reject bare) None bare_heap ≠ (Normal t, h2).
Proof.
  split; [reflexivity|].
  apply (no_failure_tuple_on_bare_object (call_toPromise (Promise_reject bare)) None).
  reflexivity.
Defined.

(** C6, at a raised [Object.create(null)]: the signal is no [Error] instance,
    yet no new [Error] with its text as message is built.  The signal has no
    text, [String] raising a TypeError, and that TypeError is what the
    normalisation ends with; its message is the engine's, not a rendering of
    the signal. *)
Theorem no_Error_built_for_bare_object :
  instanceof_Error bare_heap bare = false ∧
  (js_String bare bare_heap).1 = Throw (VObject (Alloc 2)) ∧
  (errorInstance bare bare_heap).1 = Throw (VObject (Alloc 2)) ∧
  message_of (errorInstance bare bare_heap).2 (VObject (Alloc 2))
    = Some (VString "Cannot convert object to primitive value").
Proof. split_and!; reflexivity. Qed.

(** C10, at a raised [Object.create(null)] with a default value [d] passed:
    the caller does not get [d] back.  Whatever [d] is, the wrapper completes
    by raising a TypeError, and no tuple with [d] in its value slot is
    returned. *)
Theorem fallback_lost_on_bare_object (c : Call) (d : Value) (h : Heap) :
  operation c h = (Throw bare, bare_heap) →
  (wrapper c (Some d) h).1 = Throw (VObject (Alloc 2)) ∧
  message_of (wrapper c (Some d) h).2 (VObject (Alloc 2))
    = Some (VString "Cannot convert object to primitive value") ∧
  ∀ (f : Value) (h2 : Heap), wrapper c (Some d) h ≠ (Normal (f, d), h2).
Proof. intros Hop. rewrite wrapper_cases, Hop. by split_and!. Qed.

Lemma fallback_lost_on_bare_object_witness :
  operation (call_toSync (throw bare)) bare_heap = (Throw bare, bare_heap) ∧
  ∀ (f : Value) (h2 : Heap),
    toSync (throw bare) (Some (VString "default")) bare_heap
      ≠ (Normal (f, VString "default"), h2).
Proof.
  split; [reflexivity|].
  apply (fallback_lost_on_bare_object (call_toSync (throw bare)) (VString "default")).
  reflexivity.
Defined.

(* ===================================================================== *)
(** ** Each wrapper by itself *)
(* ===================================================================== *)

Lemma toSync_cases (fn : Eff Value) (defaultValue : option Value) (h : Heap) :
  toSync fn defaultValue h =
  match fn h with
  | (Normal result, h1) => (Normal (VNull, result), h1)
  | (Throw error, h1) => handler defaultValue error h1
  | (Pending, h1) => (Pending, h1)
  end.
Proof. apply (wrapper_cases (call_toSync fn)). Qed.

Lemma toPromise_cases (promise : Promise) (defaultValue : option Value) (h : Heap) :
  toPromise promise defaultValue h =
  match await promise h with
  | (Normal result, h1) => (Normal (VNull, result), h1)
  | (Throw error, h1) => handler defaultValue error h1
  | (Pending, h1) => (Pending, h1)
  end.
Proof. apply (wrapper_cases (call_toPromise promise)). Qed.

Lemma to_cases (asyncFn : AsyncFunction) (defaultValue : option Value) (h : Heap) :
  to asyncFn defaultValue h =
  match asyncFn h with
  | (Normal p, h0) =>
      match await p h0 with
      | (Normal result, h1) => (Normal (VNull, result), h1)
      | (Throw error, h1) => handler defaultValue error h1
      | (Pending, h1) => (Pending, h1)
      end
  | (Throw error, h1) => handler defaultValue error h1
  | (Pending, h1) => (Pending, h1)
  end.
Proof.
  change (to asyncFn defaultValue h) with (wrapper (call_to asyncFn) defaultValue h).
  rewrite wrapper_cases. cbn [operation]. unfold bind.
  by destruct (asyncFn h) as [[p|s|] h0].
Qed.

(** A promise that never settles leaves the promise of the wrapper
    unsettled: nothing is returned and nothing is raised. *)
Lemma toPromise_never (defaultValue : option Value) (h : Heap) :
  toPromise never defaultValue h = (Pending, h).
Proof. reflexivity. Qed.

(** A default value that is not passed and one that is [undefined] cannot
    be told apart. *)
Lemma optional_undefined (c : Call) (h : Heap) :
  wrapper c (Some VUndefined) h = wrapper c None h.
Proof. by rewrite !wrapper_cases. Qed.

(* ===================================================================== *)
(** ** The scenarios of the test suite *)
(* ===================================================================== *)

(** [to(() => successfulAsync("hello"))] *)
Example scenario_resolves :
  to (ret (Promise_resolve (VString "hello"))) None ∅
    = (Normal (VNull, VString "hello"), ∅).
Proof. reflexivity. Qed.

(** [to(() => failingAsync())]: the Error the promise was rejected with comes
    back as it is. *)
Example scenario_rejects :
  to failingAsync None ∅
    = (Normal (VObject (Alloc 1), VUndefined),
       <[1%positive := Error_obj "Async operation failed"]> ∅) ∧
  message_of (<[1%positive := Error_obj "Async operation failed"]> ∅) (VObject (Alloc 1))
    = Some (VString "Async operation failed").
Proof. split; reflexivity. Qed.

(** [to(() => failingAsync(), "default")] *)
Example scenario_rejects_with_default :
  to failingAsync (Some (VString "default")) ∅
    = (Normal (VObject (Alloc 1), VString "default"),
       <[1%positive := Error_obj "Async operation failed"]> ∅).
Proof. reflexivity. Qed.

(** [to(() => throwingAsync())] *)
Example scenario_async_throw :
  to throwingAsync None ∅
    = (Normal (VObject (Alloc 1), VUndefined), <[1%positive := Error_obj "Thrown error"]> ∅).
Proof. reflexivity. Qed.

(** [toSync(() => throwingSync(), "default result")] *)
Example scenario_sync_throw :
  toSync throwingSync (Some (VString "default result")) ∅
    = (Normal (VObject (Alloc 1), VString "default result"),
       <[1%positive := Error_obj "Sync operation failed"]> ∅).
Proof. reflexivity. Qed.

(** [toSync(() => JSON.parse("invalid json"))]: the SyntaxError is an [Error]
    two steps up its prototype chain and is passed through, whatever the
    engine wrote into its message. *)
Example scenario_invalid_json (message : string) :
  toSync (jsonParseSync_invalid message) None syntax_heap
    = (Normal (VObject (Alloc 2), VUndefined),
       <[2%positive := SyntaxError_obj message]> syntax_heap) ∧
  ancestor 2 (<[2%positive := SyntaxError_obj message]> syntax_heap) (Alloc 2)
    = Some ErrorPrototype.
Proof. split; reflexivity. Qed.

(** [toSync(() => JSON.parse("invalid json"), {})] with [{}] at address 2. *)
Example scenario_invalid_json_with_default (message : string) :
  toSync (jsonParseSync_invalid message) (Some (VObject (Alloc 2)))
         (<[2%positive := mkObj (Some ObjectPrototype) ∅
                                (MethodReturns (VString "[object Object]"))]> syntax_heap)
    = (Normal (VObject (Alloc 3), VObject (Alloc 2)),
       <[3%positive := SyntaxError_obj message]>
         (<[2%positive := mkObj (Some ObjectPrototype) ∅
                                (MethodReturns (VString "[object Object]"))]> syntax_heap)).
Proof. reflexivity. Qed.

(** [toPromise(Promise.reject("string error"))] *)
Example scenario_string_rejection :
  toPromise (Promise_reject (VString "string error")) None ∅
    = (Normal (VObject (Alloc 1), VUndefined), <[1%positive := Error_obj "string error"]> ∅) ∧
  message_of (<[1%positive := Error_obj "string error"]> ∅) (VObject (Alloc 1))
    = Some (VString "string error").
Proof. split; reflexivity. Qed.

(** Raised [null], [undefined], [42], a symbol and a bigint. *)
Example scenario_raised_primitives :
  (toSync (throw VNull) None ∅).1 = Normal (VObject (Alloc 1), VUndefined) ∧
  (toSync (throw VNull) None ∅).2 = <[1%positive := Error_obj "null"]> ∅ ∧
  (toSync (throw VUndefined) None ∅).2 = <[1%positive := Error_obj "undefined"]> ∅ ∧
  (toSync (throw (VNumber (NInt 42))) None ∅).2 = <[1%positive := Error_obj "42"]> ∅ ∧
  (toSync (throw (VNumber (NInt (-7)))) None ∅).2 = <[1%positive := Error_obj "-7"]> ∅ ∧
  (toSync (throw (VSymbol 1 (Some "tag"))) None ∅).2 = <[1%positive := Error_obj "Symbol(tag)"]> ∅ ∧
  (toSync (throw (VBigInt 10)) None ∅).2 = <[1%positive := Error_obj "10"]> ∅.
Proof. repeat split; reflexivity. Qed.

(* ===================================================================== *)
(** ** Further properties of the wrappers *)
(* ===================================================================== *)

(** When [String] returns a text it has laid down nothing. *)
Lemma js_String_normal_heap (v : Value) (t : string) (h h' : Heap) :
  js_String v h = (Normal t, h') → h' = h.
Proof.
  destruct v as [| |[|]| | | | |r]; cbn; try by intros [= _ <-].
  unfold ToString, bind at 1. cbn [ToPrimitive].
  destruct (conv <$> deref h r) as [[p|e|]|]; try done.
  destruct p as [| |[|]| | | | |r']; cbn; try done; by intros [= _ <-].
Qed.

(** [String] has a text only for an object the heap holds. *)
Lemma js_String_normal_allocated (l : positive) (t : string) (h h' : Heap) :
  js_String (VObject (Alloc l)) h = (Normal t, h') → is_Some (h !! l).
Proof.
  cbn. unfold ToString, bind at 1. cbn [ToPrimitive deref].
  destruct (h !! l) as [o|]; [by eexists | done].
Qed.

Lemma instanceof_Error_truthy (h : Heap) (v : Value) :
  instanceof_Error h v = true → ToBoolean v = true.
Proof. by destruct v. Qed.

(** X1: in a tuple a wrapper returns, the failure slot tells the two outcomes
    apart, and [if (error)] reads it rightly: the slot is falsy (it is [null])
    exactly when the operation returned the value in the value slot, and
    truthy exactly when the operation raised; it is then an [Error] instance
    and the value slot holds the default value. *)
Theorem error_slot_decides
    (c : Call) (defaultValue : option Value) (h h2 : Heap) (t : DoResult) :
  wrapper c defaultValue h = (Normal t, h2) →
  (ToBoolean t.1 = false ↔ t.1 = VNull ∧ operation c h = (Normal t.2, h2)) ∧
  (ToBoolean t.1 = true ↔
     ∃ s h1, operation c h = (Throw s, h1) ∧ errorInstance s h1 = (Normal t.1, h2)) ∧
  (ToBoolean t.1 = true → instanceof_Error h2 t.1 = true ∧ t.2 = optional defaultValue).
Proof.
  rewrite wrapper_cases.
  destruct (operation c h) as [[v|s|] h1] eqn:Hop; [| |done].
  - intros [= <- <-]. cbn. split_and!; try done.
    + split; [done | intros (s & h0 & [=] & _)].
  - rewrite handler_eq.
    destruct (errorInstance s h1) as [[f|e|] h'] eqn:Hf; intros [= <- <-]. cbn [fst snd].
    pose proof (errorInstance_instance _ _ _ _ Hf) as Hinst.
    pose proof (instanceof_Error_truthy _ _ Hinst) as Htrue.
    split_and!.
    + rewrite Htrue. split; [done | by intros [_ [=]]].
    + split; [intros _; by exists s, h1 | done].
    + done.
Qed.

Lemma error_slot_decides_witness :
  wrapper (call_toPromise (Promise_reject (VString "string error"))) None (∅ : Heap)
    = (Normal (VObject (Alloc 1), VUndefined), <[1%positive := Error_obj "string error"]> ∅) ∧
  ToBoolean (VObject (Alloc 1), VUndefined).1 = true ∧
  instanceof_Error (<[1%positive := Error_obj "string error"]> ∅)
                   (VObject (Alloc 1), VUndefined).1 = true ∧
  (VObject (Alloc 1), VUndefined).2 = optional None.
Proof.
  split; [reflexivity|]. split; [reflexivity|].
  apply (error_slot_decides (call_toPromise (Promise_reject (VString "string error")))
                            None ∅ _ (VObject (Alloc 1), VUndefined));
    reflexivity.
Defined.

(** X3: [to(asyncFn)] and [toPromise(asyncFn())] differ only in who meets a
    throw of the call itself.  When the call returns a promise the two
    complete alike; when the call throws, [to] hands the signal to its handler
    and [toPromise(asyncFn())] raises it to the caller, [toPromise] never
    being entered. *)
Theorem toPromise_of_call_spec
    (asyncFn : AsyncFunction) (defaultValue : option Value) (h : Heap) :
  (∀ p h0, asyncFn h = (Normal p, h0) →
     toPromise_of_call asyncFn defaultValue h = to asyncFn defaultValue h) ∧
  (∀ s h1, asyncFn h = (Throw s, h1) →
     toPromise_of_call asyncFn defaultValue h = (Throw s, h1) ∧
     to asyncFn defaultValue h = handler defaultValue s h1).
Proof.
  split.
  - intros p h0 Hcall. unfold toPromise_of_call.
    rewrite (bind_normal _ _ _ _ _ Hcall), to_cases, Hcall. apply toPromise_cases.
  - intros s h1 Hcall. split.
    + unfold toPromise_of_call. by rewrite (bind_raise _ _ _ _ _ Hcall).
    + by rewrite to_cases, Hcall.
Qed.

Lemma toPromise_of_call_spec_witness :
  (throw (VString "no connection") : AsyncFunction) (∅ : Heap)
    = (Throw (VString "no connection"), ∅) ∧
  toPromise_of_call (throw (VString "no connection")) None (∅ : Heap)
    = (Throw (VString "no connection"), ∅) ∧
  to (throw (VString "no connection")) None (∅ : Heap)
    = handler None (VString "no connection") ∅.
Proof.
  split; [reflexivity|].
  apply (proj2 (toPromise_of_call_spec (throw (VString "no connection")) None ∅)).
  reflexivity.
Defined.

(** X4: a raised object occupies the failure slot itself exactly when
    Error.prototype lies on its prototype chain, at whatever depth (an
    instance of a subclass of a subclass of [Error] is passed through); the
    heap is then the one the operation left.  Any other object is replaced
    by a new one, even if it carries a [message] of its own. *)
Theorem passed_through_iff_on_chain
    (c : Call) (defaultValue : option Value) (o : Ref) (h h1 h2 : Heap) (t : DoResult) :
  operation c h = (Throw (VObject o), h1) →
  wrapper c defaultValue h = (Normal t, h2) →
  (t.1 = VObject o ↔ ∃ k : nat, (1 ≤ k)%nat ∧ ancestor k h1 o = Some ErrorPrototype) ∧
  (t.1 = VObject o → h2 = h1) ∧
  (t.1 ≠ VObject o → ∃ text, js_String (VObject o) h1 = (Normal text, h1) ∧
                             fresh_Error h1 text t.1 h2).
Proof.
  intros Hop. rewrite wrapper_cases, Hop, handler_eq.
  rewrite <- instanceof_Error_spec.
  destruct (instanceof_Error h1 (VObject o)) eqn:Hinst.
  - rewrite (errorInstance_Error _ _ Hinst). intros [= <- <-]. cbn. by split_and!.
  - rewrite (errorInstance_other _ _ Hinst). unfold bind.
    destruct (js_String (VObject o) h1) as [[text|e|] h'] eqn:Htext; try done.
    pose proof (js_String_normal_heap _ _ _ _ Htext) as ->.
    rewrite new_Error_eq. intros [= <- <-]. cbn [fst].
    assert (Hnew : VObject (Alloc (fresh (dom h1))) ≠ VObject o).
    { intros [= <-]. apply js_String_normal_allocated in Htext as [? Hl].
      by rewrite fresh_unused in Hl. }
    split_and!.
    + split; [by intros ? | done].
    + by intros ?.
    + intros _. exists text. split; [done | apply fresh_Error_new].
Qed.

Lemma passed_through_iff_on_chain_witness :
  operation (call_toSync (throw (VObject (Alloc 2)))) subclass_heap
    = (Throw (VObject (Alloc 2)), subclass_heap) ∧
  wrapper (call_toSync (throw (VObject (Alloc 2)))) None subclass_heap
    = (Normal (VObject (Alloc 2), VUndefined), subclass_heap) ∧
  ((VObject (Alloc 2), VUndefined).1 = VObject (Alloc 2) ↔
   ∃ k : nat, (1 ≤ k)%nat ∧ ancestor k subclass_heap (Alloc 2) = Some ErrorPrototype).
Proof.
  split; [reflexivity|]. split; [reflexivity|].
  apply (passed_through_iff_on_chain (call_toSync (throw (VObject (Alloc 2)))) None (Alloc 2)
           subclass_heap subclass_heap subclass_heap (VObject (Alloc 2), VUndefined));
    reflexivity.
Defined.

(** The text of a primitive does not depend on the heap. *)
Lemma js_String_primitive_heap (v : Value) (h h' : Heap) :
  isObject v = false → (js_String v h).1 = (js_String v h').1.
Proof. by destruct v as [| |[|]| | | | |r]. Qed.

(** X5: the normalisation keeps the text of a raised primitive and nothing
    else of it.  Two raised primitives with the same text, as [42] and ["42"]
    or [null] and ["null"], give the same tuple and the same heap: from the
    [Error] one cannot tell which was raised. *)
Theorem primitive_signal_type_lost
    (c1 c2 : Call) (defaultValue : option Value) (s1 s2 : Value) (h h' h1 : Heap) :
  isObject s1 = false → isObject s2 = false →
  (js_String s1 h1).1 = (js_String s2 h1).1 →
  operation c1 h = (Throw s1, h1) →
  operation c2 h' = (Throw s2, h1) →
  wrapper c1 defaultValue h = wrapper c2 defaultValue h'.
Proof.
  intros Hp1 Hp2 Htext Hop1 Hop2. rewrite !wrapper_cases, Hop1, Hop2, !handler_eq.
  rewrite !errorInstance_other by by apply instanceof_Error_primitive.
  unfold bind.
  destruct (js_String_primitive s1 h1 Hp1) as [t1 Ht1].
  destruct (js_String_primitive s2 h1 Hp2) as [t2 Ht2].
  rewrite Ht1, Ht2 in Htext |- *. cbn in Htext. by injection Htext as ->.
Qed.

Lemma primitive_signal_type_lost_witness :
  isObject (VNumber (NInt 42)) = false ∧ isObject (VString "42") = false ∧
  (js_String (VNumber (NInt 42)) ∅).1 = (js_String (VString "42") ∅).1 ∧
  operation (call_toSync (throw (VNumber (NInt 42)))) ∅ = (Throw (VNumber (NInt 42)), ∅) ∧
  operation (call_toPromise (Promise_reject (VString "42"))) ∅ = (Throw (VString "42"), ∅) ∧
  wrapper (call_toSync (throw (VNumber (NInt 42)))) None ∅
    = wrapper (call_toPromise (Promise_reject (VString "42"))) None ∅.
Proof.
  do 5 (split; [reflexivity|]).
  apply (primitive_signal_type_lost _ _ None (VNumber (NInt 42)) (VString "42") ∅ ∅ ∅);
    reflexivity.
Defined.

(** X6: [to(() => fetchUser(id), defaultValue)], for every number [id] and
    every heap.  For [id <= 0] the tuple holds a new [Error] with the message
    "Invalid user ID" and the default value; otherwise it holds [null] and the
    new user object, whose [id] is [id] and whose [name] and [email] carry the
    text of [id].  NaN is not [<= 0] and gets a user. *)
Theorem to_fetchUser (id : Number) (defaultValue : option Value) (h : Heap) :
  let l := fresh (dom h) in
  to (fetchUser id) defaultValue h =
  if Number_le id (NInt 0)
  then (Normal (VObject (Alloc l), optional defaultValue),
        <[l := Error_obj "Invalid user ID"]> h)
  else (Normal (VNull, VObject (Alloc l)), <[l := user_obj id]> h).
Proof.
  cbn zeta. rewrite to_cases. unfold fetchUser, async_call.
  destruct (Number_le id (NInt 0)) eqn:Hle.
  - cbn. rewrite handler_eq, errorInstance_Error; [done|].
    apply instanceof_Error_fresh.
  - reflexivity.
Qed.

Lemma to_fetchUser_fields (id : Number) (h : Heap) (l : positive) :
  getOwn (<[l := user_obj id]> h) (VObject (Alloc l)) "id" = Some (VNumber id) ∧
  getOwn (<[l := user_obj id]> h) (VObject (Alloc l)) "name"
    = Some (VString ("User " +:+ NumberToString id)) ∧
  getOwn (<[l := user_obj id]> h) (VObject (Alloc l)) "email"
    = Some (VString ("user" +:+ NumberToString id +:+ "@example.com")).
Proof.
  unfold getOwn. cbn. rewrite lookup_insert_eq. cbn. split_and!; by simplify_map_eq.
Qed.


